(** * dummy_module.c, the sample WASM module of the UI tests

    The whole program is

<<
    #include <stdio.h>
    #include <stdlib.h>

    int main() {
        printf("Hello, World\n");
    }
>>

    [main] is embedded as an interaction tree over the events of the C
    library it calls. The C library and the start-up code are not part of
    the repository: [Libc] states what ISO C says about them, and the
    interpreter [Exec] runs a tree against any implementation of them. *)

From Stdlib Require Import ZArith List Lia Bool String Ascii.
From Stdlib Require Import Strings.Byte.
From stdpp Require Import gmap.
From ITree Require Import ITree.
Import ListNotations.

(** ** The C library, as far as the program uses it *)

Module Libc.

(** What a stream hands back when an output error occurs (a negative
    [int]; [EOF] in <stdio.h>). *)
Definition EOF : Z := (-1)%Z.

(** The receiving end of an output stream: the bytes it has taken so far,
    how many more it takes before a write ends in an output error ([None]:
    no bound; a closed descriptor or a full device has [room = Some 0]),
    and whether the library buffers the stream (ISO C 7.21.3: standard
    output is fully buffered when it is known not to be an interactive
    device). The buffer itself is left out: [received] is what has reached
    the stream once the process has ended and its buffers are flushed. *)
Record sink : Type := Sink {
  received : list byte;
  room : option nat;
  buffered : bool
}.

Definition accepts (n : nat) (s : sink) : bool :=
  match room s with
  | None => true
  | Some r => (n <=? r)%nat
  end.

(** Transmitting [bs]: everything is taken and the count is answered; or
    the write ends in an output error and only the bytes that still fitted
    are taken. An unbuffered stream meets the error during the call, which
    answers [EOF]; a buffered stream meets it when its buffer is flushed,
    after the call has answered the count, and nobody is told. *)
Definition transmit (bs : list byte) (s : sink) : sink * Z :=
  if accepts (length bs) s
  then (Sink (received s ++ bs) ((fun r => r - length bs) <$> room s)
          (buffered s),
        Z.of_nat (length bs))
  else (Sink (received s ++ take (default 0 (room s)) bs) (Some 0)
          (buffered s),
        if buffered s then Z.of_nat (length bs) else EOF).

(** What is visible of an execution from outside the process. *)
Record World : Type := mkWorld {
  w_stdout : sink;
  w_stderr : sink;
  w_files : gmap string (list byte);
  w_environ : list string
}.

Definition set_stdout (s : sink) (w : World) : World :=
  mkWorld s (w_stderr w) (w_files w) (w_environ w).

(** The output of a format that is given no further argument: ordinary
    bytes are copied, [%%] writes one [%], and any other conversion
    specification has no argument to consume, which ISO C leaves
    undefined ([None]). *)
Fixpoint expand_format (fmt : list byte) : option (list byte) :=
  match fmt with
  | [] => Some []
  | b :: rest =>
      if Byte.eqb b "%"%byte
      then match rest with
           | c :: rest' =>
               if Byte.eqb c "%"%byte
               then cons "%"%byte <$> expand_format rest'
               else None
           | [] => None
           end
      else cons b <$> expand_format rest
  end.

(** The calls a program can make. [Printf format] is
    [printf(format)], with no argument after the format; it answers with
    the [int] that [printf] returns. *)
Variant libcE : Type -> Type :=
| Printf (format : string) : libcE Z.

(** An implementation of the library: what a call does to the world and
    what it answers; [None] when the call has no defined behaviour. *)
Definition handler : Type := forall T, libcE T -> World -> option (World * T).

(** [printf] as ISO C 7.21.6.3 has it: the expanded format goes to standard
    output and the number of bytes transmitted is returned, or a negative
    value if an output error occurred during the call. *)
Definition printf (format : string) (w : World) : option (World * Z) :=
  match expand_format (list_byte_of_string format) with
  | None => None
  | Some bs =>
      let '(s, r) := transmit bs (w_stdout w) in
      Some (set_stdout s w, r)
  end.

Definition libc : handler :=
  fun T e =>
    match e in libcE T return World -> option (World * T) with
    | Printf format => printf format
    end.

(** What an observer of the process sees happen, in order. *)
Variant event : Type :=
| EvPrintf (format : string) (ret : Z)
| EvExit (status : Z).

Definition log {T} (e : libcE T) : T -> event :=
  match e in libcE T return T -> event with
  | Printf format => fun ret => EvPrintf format ret
  end.

End Libc.

(** ** Running an interaction tree against a library *)

Module Exec.
Import Libc.

Inductive result (A : Type) : Type :=
| Finished (a : A)
| Undefined
| OutOfFuel.
Arguments Finished {A} a.
Arguments Undefined {A}.
Arguments OutOfFuel {A}.

(** One unit of fuel per node of the tree: a call, a silent step or the
    return. The calls are logged in the order they are made. *)
Fixpoint exec {R} (h : handler) (fuel : nat) (t : itree libcE R)
    (w : World) (tr : list event) : result (World * list event * R) :=
  match fuel with
  | O => OutOfFuel
  | S fuel' =>
      match observe t with
      | RetF r => Finished (w, tr, r)
      | TauF t' => exec h fuel' t' w tr
      | VisF e k =>
          match h _ e w with
          | None => Undefined
          | Some (w', a) => exec h fuel' (k a) w' (tr ++ [log e a])
          end
      end
  end.

End Exec.

(** ** The program *)

Module DummyModule.
Import Libc Exec.

(** The string literal ["Hello, World\n"]; the escape is the byte 10. *)
Definition hello : string := "Hello, World" ++ String "010" EmptyString.

(** [int main() { printf("Hello, World\n"); }]: the value of the call is
    dropped, and control reaches the closing brace without a [return]
    ([None]). *)
Definition main : itree libcE (option Z) :=
  ITree.bind (ITree.trigger (Printf hello)) (fun _ => Ret None).

(** ISO C 5.1.2.2.3: reaching the [}] that ends [main] returns 0. *)
Definition main_status (r : option Z) : Z :=
  match r with
  | Some v => v
  | None => 0%Z
  end.

(** The start-up code: [main] declares no parameter, so the arguments of
    the command line are not passed on; what [main] returns is the exit
    status. *)
Definition crt_start (argv : list string) : itree libcE Z :=
  ITree.bind main (fun r => Ret (main_status r)).

(** An execution that has ended. *)
Record outcome : Type := mkOutcome {
  final : World;
  status : Z;
  trace : list event
}.

Definition run (h : handler) (fuel : nat) (argv : list string) (w : World)
    : result outcome :=
  match exec h fuel (crt_start argv) w [] with
  | Finished (w', tr, st) => Finished (mkOutcome w' st (tr ++ [EvExit st]))
  | Undefined => Undefined
  | OutOfFuel => OutOfFuel
  end.

(** The bytes standard output received during an execution that started in
    [w0] and ended as [o]. *)
Definition output_of (w0 : World) (o : outcome) : list byte :=
  drop (length (received (w_stdout w0))) (received (w_stdout (final o))).

End DummyModule.

(** ** Executions *)

Import Libc Exec DummyModule.

(** The text "Hello, World\n" as the 13 bytes it stands for. *)
Definition greeting : list byte :=
  [x48; x65; x6c; x6c; x6f; x2c; x20; x57; x6f; x72; x6c; x64; x0a].

(** A terminal that takes whatever is written to it. *)
Definition console : World :=
  mkWorld (Sink [] None false) (Sink [] None false) ∅ [].

(** The same, with standard output closed: it takes no byte, and being no
    interactive device it is buffered. *)
Definition closed_stdout : World :=
  mkWorld (Sink [] (Some 0) true) (Sink [] None false) ∅ [].

(** A standard output that takes no byte and is not buffered (a terminal
    that has hung up, a stream that was set unbuffered): the error shows
    during the call. *)
Definition closed_unbuffered_stdout : World :=
  mkWorld (Sink [] (Some 0) false) (Sink [] None false) ∅ [].

(** [w] with its standard output taking [r] more bytes. *)
Definition stdout_taking (r : option nat) (w : World) : World :=
  set_stdout (Sink (received (w_stdout w)) r (buffered (w_stdout w))) w.

(** How many bytes of a write of [n] bytes the stream takes. *)
Definition bytes_taken (n : nat) (s : sink) : nat :=
  match room s with
  | None => n
  | Some r => Nat.min n r
  end.

(** A call that reported an error to its caller. *)
Definition call_failed (e : event) : bool :=
  match e with
  | EvPrintf _ ret => (ret <? 0)%Z
  | EvExit _ => false
  end.

(** *** The library *)

Lemma transmit_received bs s :
  received (fst (transmit bs s)) =
    received s ++ take (default (length bs) (room s)) bs.
Proof.
  unfold transmit, accepts. destruct (room s) as [r|]; cbn.
  - destruct (length bs <=? r) eqn:Hle; cbn; [|reflexivity].
    apply Nat.leb_le in Hle. now rewrite take_ge.
  - now rewrite firstn_all.
Qed.

Lemma transmit_ret bs s :
  snd (transmit bs s) =
    if accepts (length bs) s || buffered s then Z.of_nat (length bs) else EOF.
Proof.
  unfold transmit. now destruct (accepts (length bs) s), (buffered s).
Qed.

Lemma expand_hello : expand_format (list_byte_of_string hello) = Some greeting.
Proof. reflexivity. Qed.

Lemma printf_hello w :
  printf hello w =
    Some (set_stdout (fst (transmit greeting (w_stdout w))) w,
          snd (transmit greeting (w_stdout w))).
Proof.
  unfold printf. rewrite expand_hello.
  destruct (transmit greeting (w_stdout w)); reflexivity.
Qed.

(** *** The interpreter *)

Lemma exec_more_fuel {R} (h : handler) n m (t : itree libcE R) w tr x :
  exec h n t w tr = Finished x -> exec h (n + m) t w tr = Finished x.
Proof.
  revert t w tr. induction n as [|n IH]; intros t w tr; cbn; [discriminate|].
  destruct (observe t) as [r|t'|X e k]; auto.
  destruct (h X e w) as [[w' a]|]; auto.
Qed.

(** *** [main] and the start-up code *)

Lemma exec_main (h : handler) n w tr w' r :
  h Z (Printf hello) w = Some (w', r) ->
  exec h (2 + n) main w tr = Finished (w', tr ++ [EvPrintf hello r], None).
Proof. intros H. cbn. rewrite H. reflexivity. Qed.

Lemma run_crt_start (h : handler) n argv w w' r :
  h Z (Printf hello) w = Some (w', r) ->
  run h (2 + n) argv w = Finished (mkOutcome w' 0 [EvPrintf hello r; EvExit 0]).
Proof. intros H. unfold run. cbn. rewrite H. reflexivity. Qed.

Lemma run_libc n argv w :
  run libc (2 + n) argv w =
    Finished (mkOutcome (set_stdout (fst (transmit greeting (w_stdout w))) w) 0
                [EvPrintf hello (snd (transmit greeting (w_stdout w))); EvExit 0]).
Proof. apply run_crt_start. apply printf_hello. Qed.

Lemma output_of_app w o out :
  received (w_stdout (final o)) = received (w_stdout w) ++ out ->
  output_of w o = out.
Proof. unfold output_of. intros ->. apply drop_app_length. Qed.

Lemma output_of_run w :
  output_of w
    (mkOutcome (set_stdout (fst (transmit greeting (w_stdout w))) w) 0
       [EvPrintf hello (snd (transmit greeting (w_stdout w))); EvExit 0]) =
  take (default 13 (room (w_stdout w))) greeting.
Proof. apply output_of_app. cbn [final w_stdout set_stdout]. apply transmit_received. Qed.

Lemma take_bytes_taken s :
  take (default 13 (room s)) greeting = take (bytes_taken 13 s) greeting.
Proof.
  unfold bytes_taken. destruct (room s) as [r|]; cbn [default]; [|reflexivity].
  destruct (Nat.le_gt_cases 13 r) as [Hle|Hgt].
  - rewrite Nat.min_l by exact Hle. rewrite !take_ge; trivial.
  - rewrite Nat.min_r by lia. reflexivity.
Qed.

Lemma bytes_taken_le n s : bytes_taken n s <= n.
Proof. unfold bytes_taken. destruct (room s); lia. Qed.

Lemma run_more_fuel (h : handler) n m argv w o :
  run h n argv w = Finished o -> run h (n + m) argv w = Finished o.
Proof.
  unfold run. intros H.
  destruct (exec h n (crt_start argv) w []) as [[[w' tr] st]| |] eqn:He;
    try discriminate.
  now rewrite (exec_more_fuel _ _ m _ _ _ _ He).
Qed.

(** *** Sample executions *)

Example run_on_console :
  run libc 2 [] console =
    Finished (mkOutcome
                (mkWorld (Sink greeting None false) (Sink [] None false) ∅ [])
                0 [EvPrintf hello 13; EvExit 0]).
Proof. reflexivity. Qed.

Example run_on_five_bytes_of_room :
  run libc 2 ["classification.wasm"%string] (stdout_taking (Some 5) console) =
    Finished (mkOutcome
                (mkWorld (Sink [x48; x65; x6c; x6c; x6f] (Some 0) false)
                   (Sink [] None false) ∅ [])
                0 [EvPrintf hello EOF; EvExit 0]).
Proof. reflexivity. Qed.

Example run_on_five_bytes_of_room_buffered :
  run libc 2 [] (stdout_taking (Some 5) closed_stdout) =
    Finished (mkOutcome
                (mkWorld (Sink [x48; x65; x6c; x6c; x6f] (Some 0) true)
                   (Sink [] None false) ∅ [])
                0 [EvPrintf hello 13; EvExit 0]).
Proof. reflexivity. Qed.

Example run_on_closed_stdout :
  run libc 2 [] closed_stdout =
    Finished (mkOutcome closed_stdout 0 [EvPrintf hello 13; EvExit 0]).
Proof. reflexivity. Qed.

(** A second run, on the world the first one left with no room. *)
Example run_after_a_run_that_filled_stdout :
  run libc 2 [] (stdout_taking (Some 13) closed_stdout) =
    Finished (mkOutcome
                (mkWorld (Sink greeting (Some 0) true) (Sink [] None false) ∅ [])
                0 [EvPrintf hello 13; EvExit 0]) /\
  run libc 2 []
      (mkWorld (Sink greeting (Some 0) true) (Sink [] None false) ∅ []) =
    Finished (mkOutcome
                (mkWorld (Sink greeting (Some 0) true) (Sink [] None false) ∅ [])
                0 [EvPrintf hello 13; EvExit 0]).
Proof. split; reflexivity. Qed.

Example run_without_fuel : run libc 1 [] console = OutOfFuel.
Proof. reflexivity. Qed.

Example printf_percent :
  printf "100%%" console =
    Some (mkWorld (Sink [x31; x30; x30; x25] None false) (Sink [] None false)
            ∅ [],
          4%Z).
Proof. reflexivity. Qed.

Example printf_missing_argument : printf "%d" console = None.
Proof. reflexivity. Qed.

(** ** The claims *)

(** C1, as the specification states it, fails when standard output is
    closed: the execution ends, and standard output has received nothing,
    which is not the greeting. *)
Lemma C1_closed_stdout_receives_nothing :
  exists o,
    run libc 2 [] closed_stdout = Finished o /\
    output_of closed_stdout o = [] /\
    output_of closed_stdout o <> greeting.
Proof.
  eexists. split; [reflexivity|]. split; [reflexivity|]. discriminate.
Qed.

(** C1, amended: on every execution the program makes one write to standard
    output, of the byte sequence "Hello, World\n" and nothing else; standard
    output receives exactly those 13 bytes whenever it accepts the write,
    and only a proper prefix of them when the write ends in an output
    error instead. What standard output held before is kept. *)
Theorem C1_stdout_receives_greeting_if_accepted n argv w :
  exists o ret,
    run libc (2 + n) argv w = Finished o /\
    trace o = [EvPrintf hello ret; EvExit 0] /\
    expand_format (list_byte_of_string hello) = Some greeting /\
    received (w_stdout (final o)) = received (w_stdout w) ++ output_of w o /\
    (accepts 13 (w_stdout w) = true -> output_of w o = greeting) /\
    (accepts 13 (w_stdout w) = false ->
       exists rest, rest <> [] /\ output_of w o ++ rest = greeting).
Proof.
  do 2 eexists. split; [apply run_libc|]. rewrite output_of_run.
  split; [reflexivity|]. split; [reflexivity|].
  split; [apply transmit_received|]. unfold accepts.
  destruct (room (w_stdout w)) as [r|]; cbn [default]; split; try discriminate.
  - intros Hle. apply Nat.leb_le in Hle. now apply take_ge.
  - intros Hgt. apply Nat.leb_gt in Hgt. exists (drop r greeting). split.
    + intros Hnil. apply (f_equal length) in Hnil.
      rewrite length_drop in Hnil. cbn in Hnil. lia.
    + apply take_drop.
  - reflexivity.
Qed.

(** C2: every execution ends with exit status 0, although [main] itself
    reaches its closing brace without returning a value. *)
Theorem C2_exit_status_zero n argv w :
  exists w' tr o,
    exec libc (2 + n) main w [] = Finished (w', tr, None) /\
    run libc (2 + n) argv w = Finished o /\
    final o = w' /\
    status o = 0%Z.
Proof.
  do 3 eexists. split; [apply exec_main, printf_hello|].
  split; [apply run_libc|]. split; reflexivity.
Qed.

(** C3, as the specification states it, fails: the output of two executions
    need not be identical. On a terminal standard output receives the
    greeting, on a closed standard output it receives nothing. *)
Lemma C3_console_and_closed_stdout_differ :
  exists o1 o2,
    run libc 2 [] console = Finished o1 /\
    run libc 2 [] closed_stdout = Finished o2 /\
    output_of console o1 = greeting /\
    output_of closed_stdout o2 = [] /\
    output_of console o1 <> output_of closed_stdout o2.
Proof. do 2 eexists. repeat split. discriminate. Qed.

(** C3, amended: any two executions, whatever their command lines,
    environments, files and earlier output, end with the same exit status;
    standard output receives the same bytes in both exactly when it takes
    the same number of the 13 bytes in both. *)
Theorem C3_same_status_and_same_output_on_like_stdout n1 n2 argv1 argv2 w1 w2 :
  exists o1 o2,
    run libc (2 + n1) argv1 w1 = Finished o1 /\
    run libc (2 + n2) argv2 w2 = Finished o2 /\
    status o1 = status o2 /\
    (bytes_taken 13 (w_stdout w1) = bytes_taken 13 (w_stdout w2) <->
     output_of w1 o1 = output_of w2 o2).
Proof.
  do 2 eexists. split; [apply run_libc|]. split; [apply run_libc|].
  split; [reflexivity|]. rewrite !output_of_run, !take_bytes_taken. split.
  - now intros ->.
  - intros H. apply (f_equal length) in H. rewrite !length_take in H.
    pose proof (bytes_taken_le 13 (w_stdout w1)).
    pose proof (bytes_taken_le 13 (w_stdout w2)).
    cbn [length greeting] in H. lia.
Qed.

(** C4: every execution terminates. [main] is one output call followed by
    the return, whatever the call answers, with no silent step in between;
    two steps of the interpreter end the run, and more fuel changes
    nothing. *)
Theorem C4_terminates n argv w :
  (exists k, observe main = VisF (Printf hello) k /\
             forall r : Z, observe (k r) = RetF None) /\
  exists o,
    run libc 2 argv w = Finished o /\
    run libc (2 + n) argv w = Finished o /\
    length (trace o) = 2.
Proof.
  split.
  - exists (fun r => ITree.bind (Ret r) (fun _ => Ret None)).
    split; [reflexivity|]. intros r. reflexivity.
  - eexists. split; [apply (run_libc 0)|].
    split; [apply run_more_fuel, (run_libc 0)|reflexivity].
Qed.

(** C5: the only effect of an execution is the write to standard output.
    One library call is made, the [printf]; standard error, the files and
    the environment end as they started, and standard output keeps what it
    held and is only appended to. *)
Theorem C5_only_stdout_changes n argv w :
  exists o ret,
    run libc (2 + n) argv w = Finished o /\
    trace o = [EvPrintf hello ret; EvExit 0] /\
    w_stderr (final o) = w_stderr w /\
    w_files (final o) = w_files w /\
    w_environ (final o) = w_environ w /\
    received (w_stdout (final o)) = received (w_stdout w) ++ output_of w o.
Proof.
  do 2 eexists. split; [apply run_libc|]. rewrite output_of_run.
  repeat split. apply transmit_received.
Qed.

(** C6, as the specification states it, fails: an operation of the source
    can fail. On a standard output that takes no byte and is not buffered
    the [printf] call of [main] answers a negative value, and nothing is
    written. *)
Lemma C6_printf_fails_on_closed_unbuffered_stdout :
  exists o,
    run libc 2 [] closed_unbuffered_stdout = Finished o /\
    trace o = [EvPrintf hello EOF; EvExit 0] /\
    existsb call_failed (trace o) = true /\
    output_of closed_unbuffered_stdout o = [].
Proof. eexists. repeat split. Qed.

(** C6, amended: the [printf] call, the one operation of the source, can
    fail, but [main] drops its answer: in every execution no failure is
    reported to the user (standard error receives nothing and the exit
    status is 0) and the execution does not end in an error result (the
    run finishes, never in undefined behaviour). *)
Theorem C6_failure_is_never_reported n argv w :
  exists o ret,
    run libc (2 + n) argv w = Finished o /\
    trace o = [EvPrintf hello ret; EvExit 0] /\
    w_stderr (final o) = w_stderr w /\
    status o = 0%Z.
Proof. do 2 eexists. split; [apply run_libc|]. repeat split. Qed.

(** C7, as the specification states it, fails: on a closed standard output
    the process exits with status 0 and the greeting has not been emitted,
    standard output has received nothing. *)
Lemma C7_exit_without_greeting_on_closed_stdout :
  exists o,
    run libc 2 [] closed_stdout = Finished o /\
    last (trace o) = Some (EvExit 0) /\
    status o = 0%Z /\
    output_of closed_stdout o = [] /\
    output_of closed_stdout o <> greeting.
Proof. eexists. repeat split. discriminate. Qed.

(** C7, amended: in every execution the output write comes before the end
    of the process: the trace ends with the exit, and wherever an exit
    stands in it, the [printf] call on the greeting stands earlier.
    Whenever standard output accepts the 13 bytes, it has received the
    greeting when the process has exited. *)
Theorem C7_write_precedes_exit_and_emits_if_accepted n argv w :
  exists o,
    run libc (2 + n) argv w = Finished o /\
    last (trace o) = Some (EvExit 0) /\
    (forall i st,
       trace o !! i = Some (EvExit st) ->
       exists j ret, j < i /\ trace o !! j = Some (EvPrintf hello ret)) /\
    (accepts 13 (w_stdout w) = true -> output_of w o = greeting).
Proof.
  eexists. split; [apply run_libc|]. split; [reflexivity|]. split.
  - intros i st Hi. destruct i as [|[|i]]; cbn in Hi; try discriminate.
    exists 0, (snd (transmit greeting (w_stdout w))).
    split; [lia|reflexivity].
  - rewrite output_of_run. unfold accepts.
    destruct (room (w_stdout w)) as [r|]; cbn [default]; [|reflexivity].
    intros Hle. apply Nat.leb_le in Hle. now apply take_ge.
Qed.

(** C8: [main] drops what [printf] returns. Whatever the call does to the
    world and whatever value it answers, a count or a negative value, under
    any implementation of the library, the execution ends with exit status
    0 right after that one call. *)
Theorem C8_exit_status_ignores_printf (h : handler) n argv w w' ret :
  h Z (Printf hello) w = Some (w', ret) ->
  run h (2 + n) argv w =
    Finished (mkOutcome w' 0 [EvPrintf hello ret; EvExit 0]).
Proof. apply run_crt_start. Qed.

(** The write fails on a closed, unbuffered standard output, the call
    answers [EOF], and the status is 0. *)
Lemma C8_exit_status_ignores_printf_witness :
  libc Z (Printf hello) closed_unbuffered_stdout =
    Some (closed_unbuffered_stdout, EOF) /\
  run libc 2 [] closed_unbuffered_stdout =
    Finished (mkOutcome closed_unbuffered_stdout 0
                [EvPrintf hello EOF; EvExit 0]).
Proof.
  split; [reflexivity|].
  apply (C8_exit_status_ignores_printf libc 0 []
           closed_unbuffered_stdout closed_unbuffered_stdout EOF).
  reflexivity.
Defined.
